(** * json2openapi: schema inference and document assembly

    A shallow embedding of [json2openapi.py] (the single-file script) and of
    the command-line driver [inducoapi/__main__.py], together with the
    properties their specification states about them.

    Python objects are modelled by the inductive type [value]; a [dict] is an
    association list in insertion order, with [setitem] and [delitem]
    following Python's rules (assignment to an existing key keeps its
    position).  Printing, file access, the two decoders, the OpenAPI validator
    and the YAML dumper are outside the program: printing and dumping are
    recorded as events, the others are fields of an environment [Env]. *)

From Stdlib Require Import List String Ascii ZArith Bool Lia.
From Stdlib Require Import Floats.PrimFloat.
Import ListNotations.
Open Scope string_scope.
Open Scope list_scope.

(** ** Python objects *)

(** Keys of the dictionaries the program builds or traverses: strings (JSON
    object keys, field names of the document) and integers (the response
    code, which [argparse] converts with [type=int]). *)
Inductive key : Type :=
| KStr (s : string)
| KInt (n : Z).

Coercion KStr : string >-> key.

Definition key_eqb (a b : key) : bool :=
  match a, b with
  | KStr s, KStr t => String.eqb s t
  | KInt n, KInt m => Z.eqb n m
  | _, _ => false
  end.

(** A decoded payload, a schema node and the whole document are all Python
    objects.  [VOther cls truth] stands for an object of any other class the
    YAML loader can build (a date, a byte string, a set): all the program ever
    asks of such an object is its class and its truth value. *)
#[warnings="-register-all"]
Inductive value : Type :=
| VNone
| VBool (b : bool)
| VInt (n : Z)
| VFloat (f : float)
| VStr (s : string)
| VList (l : list value)
| VDict (d : list (key * value))
| VOther (cls : string) (truth : bool).

Definition dict : Type := list (key * value).

(** What the program writes on standard output or into the output file.
    [EPrint] carries the printed text; [EUnknownType] is the diagnostic
    ["unknown type: {}, value: {}"] whose text depends on Python's rendering
    of the object; [EDump target doc] is a call of [yaml.dump] on [doc], into
    the file [target] or, with [None], to a string that is printed. *)
Inductive event : Type :=
| EPrint (text : string)
| EUnknownType (val : value)
| EDump (target : option string) (doc : value).

(** *** Classes and [isinstance] *)

Inductive pyclass : Type :=
| cls_NoneType | cls_bool | cls_int | cls_float | cls_str | cls_list
| cls_dict | cls_other (name : string).

Definition type_of (v : value) : pyclass :=
  match v with
  | VNone => cls_NoneType
  | VBool _ => cls_bool
  | VInt _ => cls_int
  | VFloat _ => cls_float
  | VStr _ => cls_str
  | VList _ => cls_list
  | VDict _ => cls_dict
  | VOther c _ => cls_other c
  end.

Definition pyclass_eqb (a b : pyclass) : bool :=
  match a, b with
  | cls_NoneType, cls_NoneType | cls_bool, cls_bool | cls_int, cls_int
  | cls_float, cls_float | cls_str, cls_str | cls_list, cls_list
  | cls_dict, cls_dict => true
  | cls_other n, cls_other m => String.eqb n m
  | _, _ => false
  end.

(** Python's [issubclass] on these classes: every class is its own subclass
    and [bool] is a subclass of [int]. *)
Definition issubclass (c d : pyclass) : bool :=
  pyclass_eqb c d ||
  match c, d with
  | cls_bool, cls_int => true
  | _, _ => false
  end.

Definition isinstance (v : value) (c : pyclass) : bool :=
  issubclass (type_of v) c.

Definition is_None (v : value) : bool :=
  match v with VNone => true | _ => false end.

(** *** Truth value testing ([if x:]) *)

Definition truthy (v : value) : bool :=
  match v with
  | VNone => false
  | VBool b => b
  | VInt n => negb (Z.eqb n 0)
  | VFloat f => negb (PrimFloat.eqb f 0%float)
  | VStr s => negb (String.eqb s "")
  | VList l => match l with [] => false | _ :: _ => true end
  | VDict d => match d with [] => false | _ :: _ => true end
  | VOther _ t => t
  end.

(** *** Dictionary operations *)

Fixpoint dict_get (d : dict) (k : key) : option value :=
  match d with
  | [] => None
  | (k', v) :: rest => if key_eqb k' k then Some v else dict_get rest k
  end.

(** [d[k] = v]: an existing key keeps its place, a new one goes last. *)
Fixpoint setitem (d : dict) (k : key) (v : value) : dict :=
  match d with
  | [] => [(k, v)]
  | (k', v') :: rest =>
      if key_eqb k' k then (k', v) :: rest else (k', v') :: setitem rest k v
  end.

(** [del d[k]]; [None] is Python's [KeyError]. *)
Fixpoint delitem (d : dict) (k : key) : option dict :=
  match d with
  | [] => None
  | (k', v') :: rest =>
      if key_eqb k' k then Some rest
      else option_map (cons (k', v')) (delitem rest k)
  end.

Definition keys (d : dict) : list key := map fst d.

(** ** Effects *)

Inductive exn : Type :=
| OSError (file : string)
| KeyError (k : key)
| TypeError
| SpecError (message : string)
| ValueError (message : string)
| SystemExit (message : string).

(** What a decoder does with a text: it returns the decoded object, or
    raises the error that [_load_file] catches for it ([JSONDecodeError] for
    [json.load], [YAMLError] for [yaml.safe_load]), or raises any other
    exception (a [ValueError] for an integer of too many digits, a
    [RecursionError] for a text nested too deep, ...). *)
Inductive decoded : Type :=
| Decoded (v : value)
| Refused
| Crashed (e : exn).

(** What lies outside the program.  [read_file] is [open(file)] followed by
    reading it ([None]: the [OSError] of a missing or unreadable file);
    [writable] tells whether [open(file, "w")] succeeds; [strerror] is the text
    of the [OSError] raised for a file; [json_load] and [yaml_safe_load] are
    the two decoders; [OpenAPI] is the validator, [Some message] being the
    [SpecError] it raises. *)
Record Env : Type := {
  read_file : string -> option string;
  writable : string -> bool;
  strerror : string -> string;
  json_load : string -> decoded;
  yaml_safe_load : string -> decoded;
  OpenAPI : value -> option string
}.

Inductive result (A : Type) : Type :=
| Return (a : A)
| Raise (e : exn).
Arguments Return {A} a.
Arguments Raise {A} e.

(** The mutable state of a run: the module-level flag [_example] and what has
    been written so far. *)
Record world : Type := {
  _example : bool;
  stdout : list event
}.

(** At import time [_example = False] and nothing has been printed. *)
Definition initial_world : world := {| _example := false; stdout := [] |}.

(** A computation reads and updates the [world] and either returns or
    raises; what was printed before an exception stays printed. *)
Definition M (A : Type) : Type := world -> result A * world.

Definition ret {A} (a : A) : M A := fun w => (Return a, w).

Definition bind {A B} (c : M A) (k : A -> M B) : M B :=
  fun w =>
    match c w with
    | (Return a, w') => k a w'
    | (Raise e, w') => (Raise e, w')
    end.

Notation "x <- c ;; k" := (bind c (fun x => k))
  (at level 61, c at next level, right associativity).
Notation "c ;; k" := (bind c (fun _ => k))
  (at level 61, right associativity).

Definition raise {A} (e : exn) : M A := fun w => (Raise e, w).

Definition lift {A} (r : result A) : M A := fun w => (r, w).

(** [try: c except ...: h]; the handler raises again what it does not
    handle. *)
Definition catch {A} (c : M A) (h : exn -> M A) : M A :=
  fun w =>
    match c w with
    | (Raise e, w') => h e w'
    | (Return a, w') => (Return a, w')
    end.

Definition emit (evs : list event) : M unit :=
  fun w => (Return tt, {| _example := _example w; stdout := stdout w ++ evs |}).

Definition print (text : string) : M unit := emit [EPrint text].

Definition get__example : M bool := fun w => (Return (_example w), w).

Definition set__example (b : bool) : M unit :=
  fun w => (Return tt, {| _example := b; stdout := stdout w |}).

(** *** Subscripting nested dictionaries *)

(** [v[k]] *)
Definition getitem (v : value) (k : key) : result value :=
  match v with
  | VDict d =>
      match dict_get d k with
      | Some x => Return x
      | None => Raise (KeyError k)
      end
  | _ => Raise TypeError
  end.

(** [v[k] = x] *)
Definition store (k : key) (x : value) (v : value) : result value :=
  match v with
  | VDict d => Return (VDict (setitem d k x))
  | _ => Raise TypeError
  end.

(** [del v[k]] *)
Definition delete (k : key) (v : value) : result value :=
  match v with
  | VDict d =>
      match delitem d k with
      | Some d' => Return (VDict d')
      | None => Raise (KeyError k)
      end
  | _ => Raise TypeError
  end.

(** [v[k1]...[kn]] is fetched and changed in place by [f].  The dictionaries
    on the way are reached through [v] alone, so changing the innermost one in
    place is rebuilding the ones around it. *)
Fixpoint update_in (ks : list key) (f : value -> result value) (v : value)
  : result value :=
  match ks with
  | [] => f v
  | k :: ks' =>
      match getitem v k with
      | Return sub =>
          match update_in ks' f sub with
          | Return sub' => store k sub' v
          | Raise e => Raise e
          end
      | Raise e => Raise e
      end
  end.

(** *** Strings *)

Definition nl : string := String (ascii_of_nat 10) "".

Definition lower_ascii (c : ascii) : ascii :=
  let n := nat_of_ascii c in
  if (65 <=? n)%nat && (n <=? 90)%nat then ascii_of_nat (n + 32) else c.

(** [str.lower] on ASCII text. *)
Fixpoint lower (s : string) : string :=
  match s with
  | EmptyString => EmptyString
  | String c rest => String (lower_ascii c) (lower rest)
  end.

(** ** Command line *)

(** The [choices] of the [method] argument. *)
Inductive http_method : Type := GET | POST | PUT | PATCH | DELETE.

Definition method_name (m : http_method) : string :=
  match m with
  | GET => "GET" | POST => "POST" | PUT => "PUT" | PATCH => "PATCH"
  | DELETE => "DELETE"
  end.

(** The namespace [parse_args] returns; both parsers declare the same
    arguments.  An option that was not given is [None]; [example] is [True]
    unless [--no-example] was given and [media_type] defaults to
    ["application/json"]. *)
Record Args : Type := {
  method : http_method;
  path : string;
  resp_code : Z;
  request : option string;
  response : option string;
  output : option string;
  example : bool;
  media_type : string
}.

(** [if args.request:] and the like: an option that was not given, or was
    given as the empty string, is false. *)
Definition supplied (o : option string) : option string :=
  match o with
  | Some s => if String.eqb s "" then None else Some s
  | None => None
  end.

(** ** The schema inferencer *)

Module Json2openapi.

(** [_get_type_ex]; the global [_example] is passed in. *)
Definition _get_type_ex (_example : bool) (val : value) : value * list event :=
  let ex := val in
  let '(t, ex, out) :=
    if is_None val then ("string", VStr "", [])
    else if isinstance val cls_str then ("string", ex, [])
    else if isinstance val cls_int then ("integer", ex, [])
    else if isinstance val cls_float then ("number", ex, [])
    else if isinstance val cls_bool then ("boolean", ex, [])
    else ("", ex, [EUnknownType val]) in
  if _example
  then (VDict [(KStr "type", VStr t); (KStr "example", ex)], out)
  else (VDict [(KStr "type", VStr t)], out).

(** The loop [for key, val in data.items(): schema["properties"][key] =
    _gen_schema(val)], with the recursive call as [gen]: it carries the
    [properties] dictionary under construction and the diagnostics printed so
    far. *)
Fixpoint items_loop (gen : value -> value * list event)
    (items : list (key * value)) (properties : dict) (out : list event)
    {struct items} : dict * list event :=
  match items with
  | [] => (properties, out)
  | (key, val) :: rest =>
      let '(s, o) := gen val in
      items_loop gen rest (setitem properties key s) (out ++ o)
  end.

(** [_gen_schema] *)
Fixpoint _gen_schema (_example : bool) (data : value) {struct data}
  : value * list event :=
  match data with
  | VDict d =>
      let '(properties, out) := items_loop (_gen_schema _example) d [] [] in
      (VDict [(KStr "type", VStr "object");
              (KStr "properties", VDict properties)], out)
  | VList l =>
      let schema : dict := [(KStr "type", VStr "array");
                            (KStr "items", VDict [])] in
      match l with
      | [] => (VDict schema, [])
      | first :: _ =>
          let '(s, o) := _gen_schema _example first in
          (VDict (setitem schema "items" s), o)
      end
  | _ => _get_type_ex _example data
  end.

(** ** The script [json2openapi.py] *)

Section Script.

Variable env : Env.

(** The body of [_load_file] on the text of the file: JSON first; YAML
    when [json.load] raises [JSONDecodeError]; [None] when [yaml.safe_load]
    then raises [YAMLError]; any other exception of a decoder is not caught. *)
Definition decode (f : string) : result value :=
  match json_load env f with
  | Decoded v => Return v
  | Crashed e => Raise e
  | Refused =>
      match yaml_safe_load env f with
      | Decoded v => Return v
      | Crashed e => Raise e
      | Refused => Return VNone
      end
  end.

(** [_load_file] *)
Definition _load_file (file : string) : M value :=
  match read_file env file with
  | None => raise (OSError file)
  | Some f => lift (decode f)
  end.

(** A call of [_gen_schema] under the current value of the global. *)
Definition gen_schema (data : value) : M value :=
  ex <- get__example ;;
  let '(schema, out) := _gen_schema ex data in
  emit out ;;
  ret schema.

(** The dictionary literal that [main] starts from. *)
Definition skeleton (args : Args) : value :=
  VDict [
    (KStr "openapi", VStr "3.0.0");
    (KStr "info", VDict [
       (KStr "title", VStr "Generated by json2openapi");
       (KStr "version", VStr "v1")]);
    (KStr "paths", VDict [
       (KStr (path args), VDict [
          (KStr (lower (method_name (method args))), VDict [
             (KStr "requestBody", VNone);
             (KStr "responses", VDict [
                (KInt (resp_code args), VDict [
                   (KStr "description", VStr "")])])])])])].

(** The keys leading to [oapi["paths"][args.path][args.method.lower()]]. *)
Definition operation (args : Args) : list key :=
  [KStr "paths"; KStr (path args); KStr (lower (method_name (method args)))].

(** [{args.media_type: {"schema": schema}}] *)
Definition content (args : Args) (schema : value) : value :=
  VDict [(KStr (media_type args), VDict [(KStr "schema", schema)])].

(** Lines 140 to 154 of [main]: the request. *)
Definition request_step (args : Args) (oapi : value) : M value :=
  match supplied (request args) with
  | Some file =>
      request_load <- _load_file file ;;
      if truthy request_load then
        schema <- gen_schema request_load ;;
        lift (update_in (operation args)
                (store "requestBody"
                   (VDict [(KStr "content", content args schema)])) oapi)
      else
        print ("warning: " ++ file
               ++ " looks not valid, skip request generation")%string ;;
        ret oapi
  | None =>
      lift (update_in (operation args) (delete "requestBody") oapi)
  end.

(** Lines 156 to 167 of [main]: the response. *)
Definition response_step (args : Args) (oapi : value) : M value :=
  match supplied (response args) with
  | Some file =>
      response_load <- _load_file file ;;
      if truthy response_load then
        schema <- gen_schema response_load ;;
        lift (update_in
                (operation args ++ [KStr "responses"; KInt (resp_code args)])
                (store "content" (content args schema)) oapi)
      else
        print ("warning: " ++ file
               ++ " looks not valid, skip response generation")%string ;;
        ret oapi
  | None => ret oapi
  end.

(** [main] up to the call of the validator: the value of [oapi] there. *)
Definition assemble (args : Args) : M value :=
  set__example (example args) ;;
  oapi <- request_step args (skeleton args) ;;
  response_step args oapi.

(** Lines 169 to 182 of [main]: validation and output. *)
Definition validate_and_write (args : Args) (oapi : value) : M unit :=
  match OpenAPI env oapi with
  | Some message =>
      print ("Validation error! " ++ message)%string
  | None =>
      print (nl ++ "OpenAPI looks valid" ++ nl)%string ;;
      match supplied (output args) with
      | Some o =>
          (if writable env o then ret tt else raise (OSError o)) ;;
          emit [EDump (Some o) oapi] ;;
          print ("Output written to " ++ o)%string
      | None =>
          print "---" ;;
          emit [EDump None oapi]
      end
  end.

Definition main (args : Args) : M unit :=
  oapi <- assemble args ;;
  validate_and_write args oapi.

(** One run of the script from a fresh interpreter. *)
Definition run (args : Args) : result unit * list event :=
  let '(r, w) := main args initial_world in (r, stdout w).

(** The document the run hands to [yaml.dump], when it does. *)
Definition dumped (evs : list event) : list value :=
  flat_map (fun e => match e with EDump _ doc => [doc] | _ => [] end) evs.

End Script.

End Json2openapi.

(** ** The driver [inducoapi/__main__.py] *)

Module Inducoapi.

Section Driver.

Variable env : Env.

(** [build_openapi] is defined in [inducoapi/inducoapi.py]; the driver is
    modelled for any such function, which may print, return the document, or
    raise (a [SpecError] from the validator, a [ValueError]). *)
Variable build_openapi :
  string -> string -> Z -> option string -> option string -> string -> bool ->
  M value.

Definition sys_exit {A} (message : string) : M A := raise (SystemExit message).

(** [_write_output] *)
Definition _write_output (oapi : value) (output : option string) : M unit :=
  match supplied output with
  | Some o =>
      (if writable env o then ret tt else raise (OSError o)) ;;
      emit [EDump (Some o) oapi] ;;
      print ("Output written to " ++ o)%string
  | None =>
      emit [EDump None oapi]
  end.

(** Reading one of the two payload files. *)
Definition read_payload (what : string) (arg : option string)
  : M (option string) :=
  match supplied arg with
  | Some file =>
      match read_file env file with
      | Some text => ret (Some text)
      | None =>
          sys_exit ("Error reading " ++ what ++ " file" ++ nl
                    ++ strerror env file)%string
      end
  | None => ret None
  end.

Definition main (args : Args) : M unit :=
  request <- read_payload "request" (request args) ;;
  response <- read_payload "response" (response args) ;;
  oapi <- catch
            (build_openapi (method_name (method args)) (path args)
               (resp_code args) request response (media_type args)
               (example args))
            (fun e =>
               match e with
               | SpecError m =>
                   sys_exit ("OpenAPI validation error" ++ nl ++ m)%string
               | ValueError m => sys_exit m
               | _ => raise e
               end) ;;
  catch (_write_output oapi (output args))
    (fun e =>
       match e with
       | OSError file =>
           print ("Error writing output file" ++ nl
                  ++ strerror env file)%string
       | _ => raise e
       end).

Definition run (args : Args) : result unit * list event :=
  let '(r, w) := main args initial_world in (r, stdout w).

End Driver.

End Inducoapi.

(** ** Vocabulary of the statements *)

(** The fixed type map [T] of the specification for the scalars null, string,
    integer and float, as the specification words it. *)
Definition T (v : value) : option string :=
  match v with
  | VNone => Some "string"
  | VStr _ => Some "string"
  | VInt _ => Some "integer"
  | VFloat _ => Some "number"
  | _ => None
  end.

(** The example recorded for a scalar: the scalar, and [""] for null. *)
Definition example_of (v : value) : value :=
  match v with
  | VNone => VStr ""
  | _ => v
  end.

(** [v[k1]...[kn]] *)
Fixpoint lookup_in (ks : list key) (v : value) : result value :=
  match ks with
  | [] => Return v
  | k :: ks' =>
      match getitem v k with
      | Return sub => lookup_in ks' sub
      | Raise e => Raise e
      end
  end.

(** The keys of the [responses] mapping of the operation of a document. *)
Definition response_keys (args : Args) (oapi : value) : option (list key) :=
  match lookup_in (Json2openapi.operation args ++ [KStr "responses"]) oapi with
  | Return (VDict d) => Some (keys d)
  | _ => None
  end.

(** The environment [env] with the files of [fs]. *)
Definition with_files (env : Env) (fs : string -> option string) : Env :=
  {| read_file := fs;
     writable := writable env;
     strerror := strerror env;
     json_load := json_load env;
     yaml_safe_load := yaml_safe_load env;
     OpenAPI := OpenAPI env |}.

(** A schema node [{"type": t}] and [{"type": t, "example": ex}]. *)
Definition typed (t : string) : value := VDict [(KStr "type", VStr t)].

Definition typed_ex (t : string) (ex : value) : value :=
  VDict [(KStr "type", VStr t); (KStr "example", ex)].

(** The property and the diagnostics that one item of a mapping gives. *)
Definition item_schema (ex : bool) (kv : key * value) : key * value :=
  (fst kv, fst (Json2openapi._gen_schema ex (snd kv))).

Definition item_out (ex : bool) (kv : key * value) : list event :=
  snd (Json2openapi._gen_schema ex (snd kv)).

(** *** Shape of the assembled document *)

(** The document with the operation holding [requestBody: x] when
    [request_body] is [Some x] and no such key otherwise, and with
    [content: c] next to the description of the response when
    [response_content] is [Some c]. *)
Definition document (args : Args) (request_body response_content : option value)
  : value :=
  VDict [
    (KStr "openapi", VStr "3.0.0");
    (KStr "info", VDict [
       (KStr "title", VStr "Generated by json2openapi");
       (KStr "version", VStr "v1")]);
    (KStr "paths", VDict [
       (KStr (path args), VDict [
          (KStr (lower (method_name (method args))), VDict (
             match request_body with
             | Some x => [(KStr "requestBody", x)]
             | None => []
             end ++
             [(KStr "responses", VDict [
                (KInt (resp_code args), VDict (
                   (KStr "description", VStr "") ::
                   match response_content with
                   | Some c => [(KStr "content", c)]
                   | None => []
                   end))])]))])])].

(** The payload named by an option of the command line, once loaded: the
    file name and the decoded value.  [None] when the option is not supplied
    (or the file cannot be loaded, which [loadable] excludes). *)
Definition loaded (env : Env) (arg : option string) : option (string * value) :=
  match supplied arg with
  | Some file =>
      match read_file env file with
      | Some text =>
          match Json2openapi.decode env text with
          | Return v => Some (file, v)
          | Raise _ => None
          end
      | None => None
      end
  | None => None
  end.

(** The exception, if any, that [_load_file] raises for a file. *)
Definition load_error (env : Env) (file : string) : option exn :=
  match read_file env file with
  | Some text =>
      match Json2openapi.decode env text with
      | Return _ => None
      | Raise e => Some e
      end
  | None => Some (OSError file)
  end.

(** The file of an option, when one is supplied, can be read and
    [_load_file] returns for it. *)
Definition loadable (env : Env) (arg : option string) : Prop :=
  forall file, supplied arg = Some file ->
    exists (text : string) (v : value),
      read_file env file = Some text /\
      Json2openapi.decode env text = Return v.

(** The file of an option, when one is supplied, can be read (which is all
    the driver does with it). *)
Definition readable (env : Env) (arg : option string) : Prop :=
  forall file, supplied arg = Some file -> read_file env file <> None.

Definition warning (file what : string) : event :=
  EPrint ("warning: " ++ file ++ " looks not valid, skip " ++ what
          ++ " generation")%string.

(** [{"content": {media_type: {"schema": s}}}], the request body for the
    schema [s]. *)
Definition body (args : Args) (s : value) : value :=
  VDict [(KStr "content", Json2openapi.content args s)].

(** What the request leaves in the operation, and what it prints. *)
Definition request_body (env : Env) (args : Args) : option value :=
  match loaded env (request args) with
  | Some (_, v) =>
      if truthy v
      then Some (body args (fst (Json2openapi._gen_schema (example args) v)))
      else Some VNone
  | None => None
  end.

Definition request_out (env : Env) (args : Args) : list event :=
  match loaded env (request args) with
  | Some (file, v) =>
      if truthy v then snd (Json2openapi._gen_schema (example args) v)
      else [warning file "request"]
  | None => []
  end.

(** What the response leaves next to the description, and what it prints. *)
Definition response_content (env : Env) (args : Args) : option value :=
  match loaded env (response args) with
  | Some (_, v) =>
      if truthy v
      then Some (Json2openapi.content args
                   (fst (Json2openapi._gen_schema (example args) v)))
      else None
  | None => None
  end.

Definition response_out (env : Env) (args : Args) : list event :=
  match loaded env (response args) with
  | Some (file, v) =>
      if truthy v then snd (Json2openapi._gen_schema (example args) v)
      else [warning file "response"]
  | None => []
  end.

(** The text [inducoapi]'s driver reads for an option of the command line. *)
Definition payload_text (env : Env) (arg : option string) : option string :=
  match supplied arg with
  | Some file => read_file env file
  | None => None
  end.

(** Two files hold texts that decode to the same value, the first with
    [json.load] and the second with [yaml.safe_load]. *)
Definition same_value (env : Env) (json_file yaml_file : option string)
  : Prop :=
  exists (t1 t2 : string) (v : value),
    json_file = Some t1 /\ yaml_file = Some t2 /\
    json_load env t1 = Decoded v /\ yaml_safe_load env t2 = Decoded v.

(** The same, and moreover [json.load] refuses the second text, so that
    [_load_file] reaches [yaml.safe_load] for it. *)
Definition same_payload (env : Env) (json_file yaml_file : option string)
  : Prop :=
  exists (t1 t2 : string) (v : value),
    json_file = Some t1 /\ yaml_file = Some t2 /\
    json_load env t1 = Decoded v /\
    json_load env t2 = Refused /\ yaml_safe_load env t2 = Decoded v.

(** *** A small world to run the program in *)

Definition yaml_text : string := ("- 1" ++ nl ++ "- 2")%string.

(** Four files: a JSON list, the same list as YAML, an empty JSON list and a
    text that is neither JSON nor YAML. *)
Definition example_files (file : string) : option string :=
  if String.eqb file "list.json" then Some "[1, 2]"
  else if String.eqb file "list.yaml" then Some yaml_text
  else if String.eqb file "empty.json" then Some "[]"
  else if String.eqb file "bad.txt" then Some "{"
  else None.

Definition example_json_load (text : string) : decoded :=
  if String.eqb text "[1, 2]" then Decoded (VList [VInt 1; VInt 2])
  else if String.eqb text "[]" then Decoded (VList [])
  else Refused.

Definition example_yaml_safe_load (text : string) : decoded :=
  if String.eqb text "[1, 2]" then Decoded (VList [VInt 1; VInt 2])
  else if String.eqb text yaml_text then Decoded (VList [VInt 1; VInt 2])
  else if String.eqb text "[]" then Decoded (VList [])
  else Refused.

(** The validator of this world accepts every document. *)
Definition example_env : Env :=
  {| read_file := example_files;
     writable := fun _ => true;
     strerror := fun file => ("No such file or directory: " ++ file)%string;
     json_load := example_json_load;
     yaml_safe_load := example_yaml_safe_load;
     OpenAPI := fun _ => None |}.


Definition example_args (req rsp : option string) : Args :=
  {| method := POST; path := "/employees"; resp_code := 201;
     request := req; response := rsp; output := None;
     example := true; media_type := "application/json" |}.

(** Two file systems with the same payload under the same name, once as
    JSON and once as YAML. *)
Definition json_files (file : string) : option string :=
  if String.eqb file "payload" then Some "[1, 2]" else None.

Definition yaml_files (file : string) : option string :=
  if String.eqb file "payload" then Some yaml_text else None.

(** *** Shapes of schema nodes and of payloads *)

(** The values [_get_type_ex] assigns to [t]. *)
Definition leaf_types : list string :=
  ["string"; "integer"; "number"; "boolean"; ""].

(** What can stand as the example of a leaf: neither [None] nor a list nor a
    dictionary. *)
Definition scalar_example (e : value) : bool :=
  match e with
  | VNone | VList _ | VDict _ => false
  | _ => true
  end.

(** The schema nodes for a setting [ex] of the example flag: a leaf has a
    type and, exactly when [ex] holds, an example; an array has a type and its
    items, which are a node or the empty dictionary; an object has a type and
    its properties, each of them a node. *)
#[warnings="-register-all"]
Inductive schema_node (ex : bool) : value -> Prop :=
| node_leaf (t : string) :
    ex = false -> In t leaf_types -> schema_node ex (typed t)
| node_leaf_example (t : string) (e : value) :
    ex = true -> In t leaf_types -> scalar_example e = true ->
    schema_node ex (typed_ex t e)
| node_empty_array :
    schema_node ex (VDict [(KStr "type", VStr "array");
                           (KStr "items", VDict [])])
| node_array (items : value) :
    schema_node ex items ->
    schema_node ex (VDict [(KStr "type", VStr "array"); (KStr "items", items)])
| node_object (properties : dict) :
    Forall (fun kv => schema_node ex (snd kv)) properties ->
    schema_node ex (VDict [(KStr "type", VStr "object");
                           (KStr "properties", VDict properties)]).

(** The objects [json.load] builds: no object of another class anywhere. *)
Fixpoint is_json (v : value) : bool :=
  match v with
  | VOther _ _ => false
  | VList l => forallb is_json l
  | VDict d => forallb (fun kv => is_json (snd kv)) d
  | _ => true
  end.

(** A payload with every list, at any depth, cut down to its first
    element. *)
Fixpoint first_only (v : value) : value :=
  match v with
  | VList l =>
      match l with
      | [] => VList []
      | first :: _ => VList [first_only first]
      end
  | VDict d => VDict (map (fun kv => (fst kv, first_only (snd kv))) d)
  | _ => v
  end.

(** [list(v[k1]...[kn].keys())] *)
Definition keys_at (ks : list key) (oapi : value) : option (list key) :=
  match lookup_in ks oapi with
  | Return (VDict d) => Some (keys d)
  | _ => None
  end.

(** The lower-case names of the methods. *)
Definition method_keys : list string :=
  ["get"; "post"; "put"; "patch"; "delete"].

(** Three behaviours of [build_openapi] to run the driver with: it returns
    a document, it raises a [ValueError], it raises a [KeyError]. *)
Definition build_returns (doc : value)
  : string -> string -> Z -> option string -> option string -> string ->
    bool -> M value :=
  fun _ _ _ _ _ _ _ => ret doc.

Definition build_raises (e : exn)
  : string -> string -> Z -> option string -> option string -> string ->
    bool -> M value :=
  fun _ _ _ _ _ _ _ => raise e.

(** The world of [example_env] where no file can be written. *)
Definition readonly_env : Env :=
  {| read_file := example_files;
     writable := fun _ => false;
     strerror := strerror example_env;
     json_load := example_json_load;
     yaml_safe_load := example_yaml_safe_load;
     OpenAPI := fun _ => None |}.

Definition output_args (out : option string) : Args :=
  {| method := GET; path := "/employees"; resp_code := 200;
     request := None; response := Some "list.json"; output := out;
     example := false; media_type := "application/yaml" |}.

(** The call of [build_openapi] that the driver makes. *)
Definition build_call (env : Env)
    (build_openapi : string -> string -> Z -> option string ->
                     option string -> string -> bool -> M value)
    (args : Args) : M value :=
  build_openapi (method_name (method args)) (path args) (resp_code args)
    (payload_text env (request args)) (payload_text env (response args))
    (media_type args) (example args).

(** What the driver makes of an exception of [build_openapi]. *)
Definition driver_exit (e : exn) : exn :=
  match e with
  | SpecError m => SystemExit ("OpenAPI validation error" ++ nl ++ m)%string
  | ValueError m => SystemExit m
  | _ => e
  end.

(** The document and the world of the script's assembly for [env] and
    [args], when the payload files can be loaded. *)
Definition assembled (env : Env) (args : Args) : value :=
  document args (request_body env args) (response_content env args).

Definition assembled_world (env : Env) (args : Args) : world :=
  {| _example := example args;
     stdout := request_out env args ++ response_out env args |}.

(** *** Texts on which the decoders part ways *)





Definition quote : string := String (ascii_of_nat 34) "".

(** The JSON text of the string [1e3], between quotes, and the YAML text
    [1e3], which [yaml.safe_load] reads as that string and [json.load] as the
    number 1000.0. *)
Definition json_1e3 : string := (quote ++ "1e3" ++ quote)%string.

Definition yaml_1e3 : string := "1e3".

Definition number_json_load (text : string) : decoded :=
  if String.eqb text json_1e3 then Decoded (VStr "1e3")
  else if String.eqb text yaml_1e3 then Decoded (VFloat 1000%float)
  else Refused.

Definition number_yaml_safe_load (text : string) : decoded :=
  if String.eqb text json_1e3 then Decoded (VStr "1e3")
  else if String.eqb text yaml_1e3 then Decoded (VStr "1e3")
  else Refused.

Definition number_env : Env :=
  {| read_file := fun _ => None;
     writable := fun _ => true;
     strerror := strerror example_env;
     json_load := number_json_load;
     yaml_safe_load := number_yaml_safe_load;
     OpenAPI := fun _ => None |}.

(** Two file systems with the same payload, the string [1e3], under the
    same name, once as JSON text and once as YAML text. *)
Definition json_1e3_files (file : string) : option string :=
  if String.eqb file "payload" then Some json_1e3 else None.

Definition yaml_1e3_files (file : string) : option string :=
  if String.eqb file "payload" then Some yaml_1e3 else None.

(** * Properties *)

(** ** Dictionaries *)

Lemma key_eqb_eq (a b : key) : key_eqb a b = true <-> a = b.
Proof.
  destruct a as [s|n], b as [t|m]; simpl; split; intros H;
    try discriminate; try (inversion H; subst).
  - apply String.eqb_eq in H. now subst.
  - apply String.eqb_refl.
  - apply Z.eqb_eq in H. now subst.
  - apply Z.eqb_refl.
Qed.

Lemma key_eqb_refl (k : key) : key_eqb k k = true.
Proof. now apply key_eqb_eq. Qed.

Lemma key_eqb_neq (a b : key) : a <> b -> key_eqb a b = false.
Proof.
  intros H. destruct (key_eqb a b) eqn:E; [|reflexivity].
  apply key_eqb_eq in E. contradiction.
Qed.

(** Assigning to a key the dictionary does not have appends the entry. *)
Lemma setitem_fresh (d : dict) (k : key) (v : value) :
  ~ In k (keys d) -> setitem d k v = d ++ [(k, v)].
Proof.
  induction d as [|[k' v'] d IH]; simpl; intros H; [reflexivity|].
  rewrite key_eqb_neq by (intros ->; apply H; now left).
  rewrite IH; [reflexivity|]. intros Hin. apply H. now right.
Qed.

(** Assigning to a key the dictionary has replaces the value in place. *)
Lemma setitem_head (d : dict) (k : key) (v v' : value) :
  setitem ((k, v) :: d) k v' = (k, v') :: d.
Proof. simpl. now rewrite key_eqb_refl. Qed.

(** ** The schema inferencer *)

Section Inferencer.

Import Json2openapi.

Variable ex : bool.

(** The loop over the items of a dictionary appends one property per item,
    in order, as long as the keys met are new. *)
Lemma items_loop_fresh (items : list (key * value)) :
  forall (properties : dict) (out : list event),
    NoDup (keys properties ++ keys items) ->
    items_loop (_gen_schema ex) items properties out =
      (properties ++ map (item_schema ex) items, out ++ flat_map (item_out ex) items).
Proof.
  induction items as [|[k v] rest IH]; intros properties out Hnd; simpl.
  - now rewrite !app_nil_r.
  - destruct (_gen_schema ex v) as [s o] eqn:E.
    rewrite setitem_fresh.
    + rewrite IH.
      * unfold item_schema at 2, item_out at 2. simpl. rewrite E. simpl.
        now rewrite <- !app_assoc.
      * unfold keys in *. rewrite map_app. simpl. rewrite <- app_assoc.
        exact Hnd.
    + apply NoDup_remove_2 in Hnd. intros Hin. apply Hnd.
      apply in_or_app. now left.
Qed.

(** Claim C1, as the code has it: a boolean is an instance of [int], and the
    [int] test comes before the [bool] test, so both booleans are given the
    type ["integer"]; the specification asks for ["boolean"]. *)
Theorem boolean_classified_as_integer (b : bool) :
  _gen_schema true (VBool b) = (typed_ex "integer" (VBool b), []) /\
  _gen_schema false (VBool b) = (typed "integer", []).
Proof. split; reflexivity. Qed.

(** The [bool] test of [_get_type_ex] is never reached with a true
    outcome: whatever passes it has passed the [int] test before. *)
Lemma bool_branch_unreachable (v : value) :
  isinstance v cls_bool = true -> isinstance v cls_int = true.
Proof. destruct v; simpl; try discriminate; reflexivity. Qed.

(** Claim C2: for a scalar [v] that is null, a string, an integer or a
    float, the schema is [{type: T v, example: v}] with examples (the example
    of null being the empty string) and [{type: T v}] without, and nothing is
    printed. *)
Theorem scalar_schema (v : value) (t : string) :
  T v = Some t ->
  _gen_schema true v = (typed_ex t (example_of v), []) /\
  _gen_schema false v = (typed t, []).
Proof.
  destruct v; simpl; intros H; inversion H; subst; split; reflexivity.
Qed.

Lemma scalar_schema_witness :
  T (VInt 3) = Some "integer" /\
  _gen_schema true (VInt 3) = (typed_ex "integer" (VInt 3), []) /\
  _gen_schema false (VInt 3) = (typed "integer", []).
Proof.
  split; [reflexivity|]. apply (scalar_schema (VInt 3) "integer"). reflexivity.
Defined.

(** Claim C3: an empty sequence gives [{type: "array", items: {}}]; a
    sequence that starts with [first] gives [{type: "array", items: s}] where
    [s] is the schema of [first], prints what inferring [first] prints, and
    the elements after the first play no part. *)
Theorem array_schema :
  _gen_schema ex (VList []) =
    (VDict [(KStr "type", VStr "array"); (KStr "items", VDict [])], []) /\
  (forall (first : value) (rest : list value),
      _gen_schema ex (VList (first :: rest)) =
        (VDict [(KStr "type", VStr "array");
                (KStr "items", fst (_gen_schema ex first))],
         snd (_gen_schema ex first))) /\
  (forall (first : value) (rest rest' : list value),
      _gen_schema ex (VList (first :: rest)) =
      _gen_schema ex (VList (first :: rest'))).
Proof.
  split; [reflexivity|]. split.
  - intros first rest. simpl. now destruct (_gen_schema ex first).
  - intros first rest rest'. reflexivity.
Qed.

(** Claim C4: for a mapping (whose keys are distinct, as the keys of a
    dictionary are) the schema is [{type: "object", properties: p}] where [p]
    has one entry per item, in the order of the items, under the same key,
    holding the schema of the item's value. *)
Theorem object_schema (d : list (key * value)) :
  NoDup (keys d) ->
  _gen_schema ex (VDict d) =
    (VDict [(KStr "type", VStr "object");
            (KStr "properties", VDict (map (item_schema ex) d))],
     flat_map (item_out ex) d).
Proof.
  intros Hnd. simpl.
  rewrite (items_loop_fresh d [] []) by exact Hnd. reflexivity.
Qed.

End Inferencer.

Lemma object_schema_witness :
  let d := [(KStr "name", VStr "Ann"); (KStr "age", VInt 41);
            (KStr "tags", VList [VStr "a"; VInt 1])] in
  NoDup (keys d) /\
  Json2openapi._gen_schema false (VDict d) =
    (VDict [(KStr "type", VStr "object");
            (KStr "properties", VDict [
               (KStr "name", typed "string");
               (KStr "age", typed "integer");
               (KStr "tags", VDict [(KStr "type", VStr "array");
                                    (KStr "items", typed "string")])])],
     []).
Proof.
  intros d. assert (Hnd : NoDup (keys d)).
  { repeat constructor; simpl; intuition discriminate. }
  split; [exact Hnd|]. exact (object_schema false d Hnd).
Defined.

(** *** The inferencer on concrete payloads *)

Example nested_payload_schema :
  Json2openapi._gen_schema true
    (VDict [(KStr "id", VInt 7);
            (KStr "name", VNone);
            (KStr "roles", VList [VStr "admin"; VInt 3]);
            (KStr "since", VOther "datetime.date" true)]) =
    (VDict [(KStr "type", VStr "object");
            (KStr "properties", VDict [
               (KStr "id", typed_ex "integer" (VInt 7));
               (KStr "name", typed_ex "string" (VStr ""));
               (KStr "roles", VDict [(KStr "type", VStr "array");
                                     (KStr "items",
                                      typed_ex "string" (VStr "admin"))]);
               (KStr "since",
                typed_ex "" (VOther "datetime.date" true))])],
     [EUnknownType (VOther "datetime.date" true)]).
Proof. reflexivity. Qed.

Example float_schema :
  Json2openapi._gen_schema false (VFloat 1.5%float) = (typed "number", []).
Proof. reflexivity. Qed.

(** A whole run of the script: request and response given, document
    accepted and printed. *)
Example accepted_run_example :
  Json2openapi.run example_env
    (example_args (Some "list.json") (Some "list.yaml")) =
    (Return tt,
     [EPrint (nl ++ "OpenAPI looks valid" ++ nl)%string;
      EPrint "---";
      EDump None
        (document (example_args (Some "list.json") (Some "list.yaml"))
           (Some (body (example_args (Some "list.json") (Some "list.yaml"))
                    (VDict [(KStr "type", VStr "array");
                            (KStr "items", typed_ex "integer" (VInt 1))])))
           (Some (Json2openapi.content
                    (example_args (Some "list.json") (Some "list.yaml"))
                    (VDict [(KStr "type", VStr "array");
                            (KStr "items", typed_ex "integer" (VInt 1))]))))]).
Proof. reflexivity. Qed.

(** ** The assembler *)

(** Looking up a key that stands first in a dictionary literal. *)
Ltac eqb_steps :=
  repeat (progress (rewrite ?String.eqb_refl, ?Z.eqb_refl; simpl)).

Section Assembler.

Import Json2openapi.

Variable env : Env.

Lemma skeleton_document (args : Args) :
  skeleton args = document args (Some VNone) None.
Proof. reflexivity. Qed.

(** The three changes [main] makes to the document, on its shape. *)
Lemma store_request_body (args : Args) (x : value) (rc : option value) :
  update_in (operation args) (store "requestBody" x)
    (document args (Some VNone) rc) = Return (document args (Some x) rc).
Proof.
  unfold operation, document. simpl. now eqb_steps.
Qed.

Lemma delete_request_body (args : Args) (rc : option value) :
  update_in (operation args) (delete "requestBody")
    (document args (Some VNone) rc) = Return (document args None rc).
Proof.
  unfold operation, document. simpl. now eqb_steps.
Qed.

Lemma store_response_content (args : Args) (c : value) (rb : option value) :
  update_in (operation args ++ [KStr "responses"; KInt (resp_code args)])
    (store "content" c) (document args rb None) =
  Return (document args rb (Some c)).
Proof.
  unfold operation, document. destruct rb; simpl; now eqb_steps.
Qed.

Lemma world_eta (w : world) :
  {| _example := _example w; stdout := stdout w ++ [] |} = w.
Proof. destruct w. simpl. now rewrite app_nil_r. Qed.

(** Lines 140 to 154 on the shape of the document. *)
Lemma request_step_document (args : Args) (rc : option value) (w : world) :
  loadable env (request args) ->
  _example w = example args ->
  request_step env args (document args (Some VNone) rc) w =
    (Return (document args (request_body env args) rc),
     {| _example := _example w;
        stdout := stdout w ++ request_out env args |}).
Proof.
  intros Hr Hex.
  unfold request_step, request_body, request_out, loaded, loadable in *.
  destruct (supplied (request args)) as [file|].
  - destruct (Hr file eq_refl) as (text & v & Hf & Hd).
    unfold _load_file, bind, lift. rewrite Hf, Hd. cbv beta iota.
    destruct (truthy v).
    + unfold gen_schema, bind, get__example, emit, lift, ret. rewrite Hex.
      destruct (_gen_schema (example args) v) as [s o].
      rewrite store_request_body. simpl. now rewrite ?Hex.
    + reflexivity.
  - unfold lift. rewrite delete_request_body. now rewrite world_eta.
Qed.

(** Lines 156 to 167 on the shape of the document. *)
Lemma response_step_document (args : Args) (rb : option value) (w : world) :
  loadable env (response args) ->
  _example w = example args ->
  response_step env args (document args rb None) w =
    (Return (document args rb (response_content env args)),
     {| _example := _example w;
        stdout := stdout w ++ response_out env args |}).
Proof.
  intros Hr Hex.
  unfold response_step, response_content, response_out, loaded, loadable in *.
  destruct (supplied (response args)) as [file|].
  - destruct (Hr file eq_refl) as (text & v & Hf & Hd).
    unfold _load_file, bind, lift. rewrite Hf, Hd. cbv beta iota.
    destruct (truthy v).
    + unfold gen_schema, bind, get__example, emit, lift, ret. rewrite Hex.
      destruct (_gen_schema (example args) v) as [s o].
      rewrite store_response_content. simpl. now rewrite ?Hex.
    + reflexivity.
  - unfold ret. now rewrite world_eta.
Qed.

(** The document [main] has assembled when it calls the validator, and what
    it has printed by then, whenever the payload files can be loaded. *)
Lemma assemble_document (args : Args) :
  loadable env (request args) ->
  loadable env (response args) ->
  assemble env args initial_world =
    (Return (document args (request_body env args) (response_content env args)),
     {| _example := example args;
        stdout := request_out env args ++ response_out env args |}).
Proof.
  intros Hq Hp. unfold assemble, bind, set__example. simpl.
  rewrite skeleton_document, request_step_document by (assumption || reflexivity).
  now rewrite response_step_document by (assumption || reflexivity).
Qed.

End Assembler.

(** ** The document and the payloads *)

Section Payloads.

Import Json2openapi.

Variable env : Env.

Lemma not_supplied_loadable (arg : option string) :
  supplied arg = None -> loadable env arg.
Proof. intros H file Hf. congruence. Qed.

(** The one file of an option, when it loads, makes the option loadable. *)
Lemma supplied_loadable (arg : option string) (file text : string) (v : value) :
  supplied arg = Some file ->
  read_file env file = Some text ->
  decode env text = Return v ->
  loadable env arg.
Proof.
  intros Hs Hf Hd f Hf'. rewrite Hs in Hf'. inversion Hf'; subst. eauto.
Qed.

Lemma supplied_loaded (arg : option string) (file text : string) (v : value) :
  supplied arg = Some file ->
  read_file env file = Some text ->
  decode env text = Return v ->
  loaded env arg = Some (file, v).
Proof. intros Hs Hf Hd. unfold loaded. now rewrite Hs, Hf, Hd. Qed.

Lemma not_supplied_loaded (arg : option string) :
  supplied arg = None -> loaded env arg = None.
Proof. intros H. unfold loaded. now rewrite H. Qed.

(** A text that both decoders refuse loads as [None], which is false. *)
Lemma decode_failure (text : string) :
  json_load env text = Refused -> yaml_safe_load env text = Refused ->
  decode env text = Return VNone.
Proof. intros Hj Hy. unfold decode. now rewrite Hj, Hy. Qed.

(** Claim C5: without a request and without a response (options absent or
    empty), the run assembles a document and prints nothing; the operation of
    that document is exactly [{responses: {code: {description: ""}}}], so it
    has no [requestBody] key and its responses have the one entry of the code. *)
Theorem no_payload_document (args : Args) :
  supplied (request args) = None ->
  supplied (response args) = None ->
  exists oapi : value,
    assemble env args initial_world =
      (Return oapi, {| _example := example args; stdout := [] |}) /\
    lookup_in (operation args) oapi =
      Return (VDict [(KStr "responses", VDict [
                        (KInt (resp_code args), VDict [
                           (KStr "description", VStr "")])])]) /\
    lookup_in (operation args ++ [KStr "requestBody"]) oapi =
      Raise (KeyError "requestBody").
Proof.
  intros Hq Hp. exists (document args None None).
  rewrite assemble_document by now apply not_supplied_loadable.
  unfold request_body, response_content, request_out, response_out.
  rewrite !not_supplied_loaded by assumption.
  repeat split; unfold operation, document; simpl; now eqb_steps.
Qed.

(** Claim C6, as the code has it: a request file that is neither JSON nor
    YAML raises nothing and the warning is printed, but the operation keeps
    the key [requestBody], bound to [None]: the placeholder of the skeleton
    is removed only when no request is supplied. *)
Theorem malformed_request_keeps_placeholder (args : Args) (file text : string) :
  supplied (request args) = Some file ->
  read_file env file = Some text ->
  json_load env text = Refused ->
  yaml_safe_load env text = Refused ->
  loadable env (response args) ->
  exists (oapi : value) (w : world),
    assemble env args initial_world = (Return oapi, w) /\
    In (warning file "request") (stdout w) /\
    lookup_in (operation args ++ [KStr "requestBody"]) oapi = Return VNone.
Proof.
  intros Hs Hf Hj Hy Hp.
  pose proof (decode_failure text Hj Hy) as Hd.
  eexists. eexists. split.
  - apply assemble_document; [|exact Hp].
    exact (supplied_loadable _ file text VNone Hs Hf Hd).
  - unfold request_body, request_out.
    rewrite (supplied_loaded _ file text VNone Hs Hf Hd). simpl.
    split; [now left|].
    unfold operation, document. simpl. now eqb_steps.
Qed.

(** A response file that is neither JSON nor YAML leaves the response with
    its description alone. *)
Lemma malformed_response_omitted (args : Args) (file text : string) :
  supplied (response args) = Some file ->
  read_file env file = Some text ->
  json_load env text = Refused ->
  yaml_safe_load env text = Refused ->
  loadable env (request args) ->
  exists (oapi : value) (w : world),
    assemble env args initial_world = (Return oapi, w) /\
    In (warning file "response") (stdout w) /\
    lookup_in (operation args ++ [KStr "responses"; KInt (resp_code args)])
      oapi = Return (VDict [(KStr "description", VStr "")]).
Proof.
  intros Hs Hf Hj Hy Hq.
  pose proof (decode_failure text Hj Hy) as Hd.
  eexists. eexists. split.
  - apply assemble_document; [exact Hq|].
    exact (supplied_loadable _ file text VNone Hs Hf Hd).
  - unfold response_content, response_out.
    rewrite (supplied_loaded _ file text VNone Hs Hf Hd). simpl. split.
    + apply in_or_app. right. now left.
    + unfold operation, document. destruct (request_body env args); simpl;
        now eqb_steps.
Qed.

(** Claim C10: when the file of a payload loads as a false value (an empty
    object, an empty array, zero, false, null, the empty string, or the
    [None] of a text that could not be decoded), the request step and the
    response step each print their warning and leave the document as it
    was. *)
Theorem falsy_payload_skipped (args : Args) (oapi : value) (w : world)
    (file text : string) (v : value) :
  read_file env file = Some text ->
  decode env text = Return v ->
  truthy v = false ->
  (supplied (request args) = Some file ->
   request_step env args oapi w =
     (Return oapi,
      {| _example := _example w;
         stdout := stdout w ++ [warning file "request"] |})) /\
  (supplied (response args) = Some file ->
   response_step env args oapi w =
     (Return oapi,
      {| _example := _example w;
         stdout := stdout w ++ [warning file "response"] |})).
Proof.
  intros Hf Hd Ht. split; intros Hs.
  - unfold request_step, _load_file, bind, lift. rewrite Hs, Hf, Hd.
    cbv beta iota. now rewrite Ht.
  - unfold response_step, _load_file, bind, lift. rewrite Hs, Hf, Hd.
    cbv beta iota. now rewrite Ht.
Qed.

End Payloads.

(** The values that are false. *)
Lemma falsy_values :
  truthy (VDict []) = false /\ truthy (VList []) = false /\
  truthy (VInt 0) = false /\ truthy (VFloat 0%float) = false /\
  truthy (VBool false) = false /\ truthy VNone = false /\
  truthy (VStr "") = false.
Proof. repeat split; reflexivity. Qed.

Lemma no_payload_document_witness :
  exists oapi : value,
    Json2openapi.assemble example_env (example_args None None) initial_world =
      (Return oapi, {| _example := true; stdout := [] |}) /\
    lookup_in (Json2openapi.operation (example_args None None)) oapi =
      Return (VDict [(KStr "responses", VDict [
                        (KInt 201, VDict [(KStr "description", VStr "")])])]) /\
    lookup_in (Json2openapi.operation (example_args None None)
               ++ [KStr "requestBody"]) oapi =
      Raise (KeyError "requestBody").
Proof.
  apply (no_payload_document example_env (example_args None None));
    reflexivity.
Defined.

Lemma malformed_request_keeps_placeholder_witness :
  exists (oapi : value) (w : world),
    Json2openapi.assemble example_env (example_args (Some "bad.txt") None)
      initial_world = (Return oapi, w) /\
    In (warning "bad.txt" "request") (stdout w) /\
    lookup_in (Json2openapi.operation (example_args (Some "bad.txt") None)
               ++ [KStr "requestBody"]) oapi = Return VNone.
Proof.
  apply (malformed_request_keeps_placeholder example_env
           (example_args (Some "bad.txt") None) "bad.txt" "{");
    try reflexivity.
  intros file H. discriminate H.
Defined.

Lemma falsy_payload_skipped_witness :
  let args := example_args (Some "empty.json") (Some "empty.json") in
  let oapi := Json2openapi.skeleton args in
  (Json2openapi.request_step example_env args oapi initial_world =
     (Return oapi,
      {| _example := false; stdout := [warning "empty.json" "request"] |})) /\
  (Json2openapi.response_step example_env args oapi initial_world =
     (Return oapi,
      {| _example := false; stdout := [warning "empty.json" "response"] |})).
Proof.
  intros args oapi.
  destruct (falsy_payload_skipped example_env args oapi initial_world
              "empty.json" "[]" (VList []) eq_refl eq_refl eq_refl)
    as [Hq Hp].
  split; [exact (Hq eq_refl) | exact (Hp eq_refl)].
Defined.

(** ** What a run prints and dumps *)

(** Induction on Python objects that reaches the elements of lists and the
    values of dictionaries. *)
Lemma value_ind' (P : value -> Prop) :
  P VNone ->
  (forall b, P (VBool b)) ->
  (forall n, P (VInt n)) ->
  (forall f, P (VFloat f)) ->
  (forall s, P (VStr s)) ->
  (forall l, Forall P l -> P (VList l)) ->
  (forall d, Forall (fun kv => P (snd kv)) d -> P (VDict d)) ->
  (forall cls truth, P (VOther cls truth)) ->
  forall v, P v.
Proof.
  intros HN HB HI HF HS HL HD HO.
  fix IH 1. intros [ | b | n | f | s | l | d | cls truth].
  - exact HN.
  - apply HB.
  - apply HI.
  - apply HF.
  - apply HS.
  - apply HL. induction l as [|x l IHl]; constructor; [apply IH | exact IHl].
  - apply HD. induction d as [|[k x] d IHd]; constructor;
      [apply IH | exact IHd].
  - apply HO.
Qed.

Lemma dumped_app (a b : list event) :
  Json2openapi.dumped (a ++ b) = Json2openapi.dumped a ++ Json2openapi.dumped b.
Proof. unfold Json2openapi.dumped. apply flat_map_app. Qed.

Section Runs.

Import Json2openapi.

Lemma items_loop_no_dump (gen : value -> value * list event)
    (items : list (key * value)) :
  Forall (fun kv => dumped (snd (gen (snd kv))) = []) items ->
  forall properties out,
    dumped out = [] ->
    dumped (snd (items_loop gen items properties out)) = [].
Proof.
  induction 1 as [|[k v] rest Hv _ IH]; intros properties out Hout; simpl.
  - exact Hout.
  - simpl in Hv. destruct (gen v) as [s o]. apply IH.
    rewrite dumped_app, Hout. exact Hv.
Qed.

(** The inferencer prints diagnostics only. *)
Lemma gen_schema_no_dump (ex : bool) (v : value) :
  dumped (snd (_gen_schema ex v)) = [].
Proof.
  induction v as [ | b | n | f | s | l Hl | d Hd | cls truth] using value_ind';
    try (destruct ex; reflexivity).
  - destruct l as [|first rest]; [reflexivity|]. simpl.
    inversion Hl as [|? ? Hfirst _]; subst.
    now destruct (_gen_schema ex first).
  - simpl.
    pose proof (items_loop_no_dump (_gen_schema ex) d Hd [] [] eq_refl) as H.
    now destruct (items_loop (_gen_schema ex) d [] []).
Qed.

Variable env : Env.

Lemma request_out_no_dump (args : Args) : dumped (request_out env args) = [].
Proof.
  unfold request_out. destruct (loaded env (request args)) as [[file v]|];
    [|reflexivity].
  destruct (truthy v); [apply gen_schema_no_dump | reflexivity].
Qed.

Lemma response_out_no_dump (args : Args) : dumped (response_out env args) = [].
Proof.
  unfold response_out. destruct (loaded env (response args)) as [[file v]|];
    [|reflexivity].
  destruct (truthy v); [apply gen_schema_no_dump | reflexivity].
Qed.

(** Either the file of an option loads, or [_load_file] raises for it. *)
Lemma loadable_dec (arg : option string) :
  loadable env arg \/
  exists file e, supplied arg = Some file /\ load_error env file = Some e.
Proof.
  unfold loadable, load_error. destruct (supplied arg) as [file|].
  - destruct (read_file env file) as [text|] eqn:Ef.
    + destruct (decode env text) as [v|e] eqn:Ed.
      * left. intros f Hf. inversion Hf; subst. rewrite Ef. eauto.
      * right. exists file, e. now rewrite Ef, Ed.
    + right. exists file, (OSError file). now rewrite Ef.
  - left. discriminate.
Qed.

Lemma unreadable_load_error (file : string) :
  read_file env file = None -> load_error env file = Some (OSError file).
Proof. intros H. unfold load_error. now rewrite H. Qed.


(** A payload file for which [_load_file] raises ends the step with that
    exception, the world left as it was. *)
Lemma request_step_fails (args : Args) (oapi : value) (w : world)
    (file : string) (e : exn) :
  supplied (request args) = Some file -> load_error env file = Some e ->
  request_step env args oapi w = (Raise e, w).
Proof.
  intros Hs He. unfold load_error in He.
  unfold request_step, _load_file, bind, lift, raise. rewrite Hs.
  destruct (read_file env file) as [text|].
  - destruct (decode env text); now inversion He.
  - now inversion He.
Qed.

Lemma response_step_fails (args : Args) (oapi : value) (w : world)
    (file : string) (e : exn) :
  supplied (response args) = Some file -> load_error env file = Some e ->
  response_step env args oapi w = (Raise e, w).
Proof.
  intros Hs He. unfold load_error in He.
  unfold response_step, _load_file, bind, lift, raise. rewrite Hs.
  destruct (read_file env file) as [text|].
  - destruct (decode env text); now inversion He.
  - now inversion He.
Qed.

(** If the assembly returns, the payload files were loaded. *)
Lemma assemble_returns (args : Args) (oapi : value) (w : world) :
  assemble env args initial_world = (Return oapi, w) ->
  loadable env (request args) /\ loadable env (response args).
Proof.
  intros H. unfold assemble, bind, set__example in H. simpl in H.
  destruct (loadable_dec (request args)) as [Hq | (file & e & Hs & He)].
  - split; [exact Hq|].
    destruct (loadable_dec (response args)) as [Hp | (file & e & Hs & He)];
      [exact Hp|].
    rewrite skeleton_document, request_step_document in H
      by (assumption || reflexivity).
    rewrite (response_step_fails _ _ _ file e Hs He) in H. discriminate H.
  - rewrite (request_step_fails _ _ _ file e Hs He) in H. discriminate H.
Qed.

(** The assembly when [_load_file] raises for the request, and for the
    response after the request was loaded. *)
Lemma assemble_fails_request (args : Args) (w : world) (file : string)
    (e : exn) :
  supplied (request args) = Some file -> load_error env file = Some e ->
  assemble env args w =
    (Raise e, {| _example := example args; stdout := stdout w |}).
Proof.
  intros Hs He. unfold assemble, bind, set__example.
  now rewrite (request_step_fails _ _ _ file e Hs He).
Qed.

Lemma assemble_fails_response (args : Args) (w : world) (file : string)
    (e : exn) :
  loadable env (request args) ->
  supplied (response args) = Some file -> load_error env file = Some e ->
  assemble env args w =
    (Raise e,
     {| _example := example args;
        stdout := stdout w ++ request_out env args |}).
Proof.
  intros Hq Hs He. unfold assemble, bind, set__example.
  rewrite skeleton_document, request_step_document by (assumption || reflexivity).
  now rewrite (response_step_fails _ _ _ file e Hs He).
Qed.

(** A run whose assembly raises ends with that exception and what the
    assembly had printed. *)
Lemma run_assembly_raises (args : Args) (e : exn) (w : world) :
  assemble env args initial_world = (Raise e, w) ->
  run env args = (Raise e, stdout w).
Proof. intros H. unfold run, main, bind. now rewrite H. Qed.

(** The assembly, when it returns, returns the document of
    [assemble_document] and has dumped nothing. *)
Lemma assemble_shape (args : Args) (oapi : value) (w : world) :
  assemble env args initial_world = (Return oapi, w) ->
  oapi = document args (request_body env args) (response_content env args) /\
  dumped (stdout w) = [].
Proof.
  intros H. destruct (assemble_returns args oapi w H) as [Hq Hp].
  rewrite (assemble_document env args Hq Hp) in H. inversion H; subst.
  split; [reflexivity|]. simpl.
  now rewrite dumped_app, request_out_no_dump, response_out_no_dump.
Qed.

(** A run is the assembly followed by validation and output. *)
Lemma run_after_assemble (args : Args) (oapi : value) (w : world) :
  assemble env args initial_world = (Return oapi, w) ->
  run env args =
    (fst (validate_and_write env args oapi w),
     stdout (snd (validate_and_write env args oapi w))).
Proof.
  intros H. unfold run, main, bind. rewrite H.
  now destruct (validate_and_write env args oapi w).
Qed.

End Runs.

(** ** Hard and soft failures *)

Section Failures.

Import Json2openapi.

Variable env : Env.

(** When the validator refuses the document the run prints its message and
    ends there. *)
Lemma refused_run (args : Args) (oapi : value) (w : world) (message : string) :
  assemble env args initial_world = (Return oapi, w) ->
  OpenAPI env oapi = Some message ->
  run env args =
    (Return tt, stdout w ++ [EPrint ("Validation error! " ++ message)%string]).
Proof.
  intros Ha Hv. rewrite (run_after_assemble env args oapi w Ha).
  unfold validate_and_write. now rewrite Hv.
Qed.


Variable build_openapi :
  string -> string -> Z -> option string -> option string -> string -> bool ->
  M value.

Lemma read_payload_readable (what : string) (arg : option string) (w : world) :
  readable env arg ->
  Inducoapi.read_payload env what arg w = (Return (payload_text env arg), w).
Proof.
  unfold readable, Inducoapi.read_payload, payload_text. intros H.
  destruct (supplied arg) as [file|]; [|reflexivity].
  specialize (H file eq_refl).
  destruct (read_file env file); [reflexivity | congruence].
Qed.

End Failures.




Lemma list_json_loadable (env : Env) :
  read_file env "list.json" = Some "[1, 2]" ->
  json_load env "[1, 2]" = Decoded (VList [VInt 1; VInt 2]) ->
  loadable env (Some "list.json").
Proof.
  intros Hf Hj file H. cbv in H. injection H as <-.
  exists "[1, 2]", (VList [VInt 1; VInt 2]). split; [exact Hf|].
  unfold Json2openapi.decode. now rewrite Hj.
Qed.

Lemma none_loadable (env : Env) : loadable env None.
Proof. intros file H. discriminate H. Qed.


(** ** JSON and YAML payloads *)

Section TwoFormats.

Import Json2openapi.

Variable env : Env.
Variables fs1 fs2 : string -> option string.

Lemma same_payload_loaded (arg : option string) :
  (forall file, supplied arg = Some file ->
                same_payload env (fs1 file) (fs2 file)) ->
  loaded (with_files env fs1) arg = loaded (with_files env fs2) arg /\
  loadable (with_files env fs1) arg /\ loadable (with_files env fs2) arg.
Proof.
  intros H. unfold loaded, loadable. destruct (supplied arg) as [file|].
  - destruct (H file eq_refl) as (t1 & t2 & v & H1 & H2 & Hj1 & Hj2 & Hy2).
    assert (D1 : decode (with_files env fs1) t1 = Return v).
    { unfold decode. simpl. now rewrite Hj1. }
    assert (D2 : decode (with_files env fs2) t2 = Return v).
    { unfold decode. simpl. now rewrite Hj2, Hy2. }
    simpl. rewrite H1, H2, D1, D2.
    repeat split; intros f Hf; inversion Hf; subst; eauto.
  - repeat split; discriminate.
Qed.

(** Claim C8, amended: when each payload file holds JSON text in one file
    system and, in the other, YAML text that the JSON decoder refuses and the
    YAML decoder reads as the same value, the two runs end alike and print and
    dump the same things. *)
Theorem json_and_yaml_payloads_agree (args : Args) :
  (forall file, supplied (request args) = Some file ->
                same_payload env (fs1 file) (fs2 file)) ->
  (forall file, supplied (response args) = Some file ->
                same_payload env (fs1 file) (fs2 file)) ->
  run (with_files env fs1) args = run (with_files env fs2) args.
Proof.
  intros Hq Hp.
  destruct (same_payload_loaded _ Hq) as (Lq & Rq1 & Rq2).
  destruct (same_payload_loaded _ Hp) as (Lp & Rp1 & Rp2).
  pose proof (assemble_document (with_files env fs1) args Rq1 Rp1) as A1.
  pose proof (assemble_document (with_files env fs2) args Rq2 Rp2) as A2.
  rewrite (run_after_assemble _ _ _ _ A1), (run_after_assemble _ _ _ _ A2).
  unfold request_body, response_content, request_out, response_out.
  rewrite Lq, Lp. reflexivity.
Qed.

End TwoFormats.

(** Claim C8, as the specification reads it, fails: the JSON text of the
    string [1e3] and the YAML text [1e3] decode to the same value, each with
    its decoder, but [_load_file] tries [json.load] first, which reads the
    YAML text as the number 1000.0, and the two runs dump different
    documents. *)
Lemma yaml_text_read_as_json :
  let args := example_args None (Some "payload") in
  (forall file, supplied (response args) = Some file ->
                same_value number_env (json_1e3_files file)
                  (yaml_1e3_files file)) /\
  Json2openapi.run (with_files number_env json_1e3_files) args <>
  Json2openapi.run (with_files number_env yaml_1e3_files) args.
Proof.
  intros args. split.
  - intros file H. cbv in H. injection H as <-.
    exists json_1e3, yaml_1e3, (VStr "1e3"). repeat split; reflexivity.
  - intros H. vm_compute in H. discriminate H.
Qed.

Lemma json_and_yaml_payloads_agree_witness :
  Json2openapi.run (with_files example_env json_files)
    (example_args None (Some "payload")) =
  Json2openapi.run (with_files example_env yaml_files)
    (example_args None (Some "payload")).
Proof.
  apply (json_and_yaml_payloads_agree example_env json_files yaml_files
           (example_args None (Some "payload"))).
  - intros file H. discriminate H.
  - intros file H. inversion H; subst.
    exists "[1, 2]", yaml_text, (VList [VInt 1; VInt 2]).
    repeat split; reflexivity.
Defined.

(** ** The key of the response *)

(** Property X16: the responses of the assembled document have one key,
    the response code as the integer the command line gave, whatever payloads
    were supplied; the script makes no string of it. *)
Theorem response_code_keyed_by_integer (env : Env) (args : Args)
    (oapi : value) (w : world) :
  Json2openapi.assemble env args initial_world = (Return oapi, w) ->
  response_keys args oapi = Some [KInt (resp_code args)].
Proof.
  intros H. destruct (assemble_shape env args oapi w H) as [-> _].
  unfold response_keys, Json2openapi.operation, document.
  destruct (request_body env args), (response_content env args); simpl;
    now eqb_steps.
Qed.

Lemma response_code_keyed_by_integer_witness :
  exists (oapi : value) (w : world),
    Json2openapi.assemble example_env
      (example_args (Some "list.json") (Some "list.yaml")) initial_world =
      (Return oapi, w) /\
    response_keys (example_args (Some "list.json") (Some "list.yaml")) oapi =
      Some [KInt 201].
Proof.
  eexists. eexists. split; [reflexivity|].
  apply (response_code_keyed_by_integer example_env
           (example_args (Some "list.json") (Some "list.yaml")) _
           {| _example := true; stdout := [] |}).
  reflexivity.
Defined.

(** * Further properties of the code *)

(** ** The inferencer on whole payloads *)

Section Schemas.

Import Json2openapi.

Variable ex : bool.

(** What the loop over the items prints: what was printed before, then what
    each item's value prints, in order. *)
Lemma items_loop_out (gen : value -> value * list event)
    (items : list (key * value)) :
  forall (properties : dict) (out : list event),
    snd (items_loop gen items properties out) =
      out ++ flat_map (fun kv => snd (gen (snd kv))) items.
Proof.
  induction items as [|[k v] rest IH]; intros properties out; simpl.
  - now rewrite app_nil_r.
  - destruct (gen v) as [s o]. rewrite IH. simpl. now rewrite app_assoc.
Qed.

Lemma gen_schema_dict_out (d : list (key * value)) :
  snd (_gen_schema ex (VDict d)) = flat_map (item_out ex) d.
Proof.
  simpl. pose proof (items_loop_out (_gen_schema ex) d [] []) as H.
  destruct (items_loop (_gen_schema ex) d [] []) as [p o]. exact H.
Qed.

Lemma gen_schema_list_out (first : value) (rest : list value) :
  snd (_gen_schema ex (VList (first :: rest))) = snd (_gen_schema ex first).
Proof. simpl. now destruct (_gen_schema ex first). Qed.

Lemma gen_schema_list_schema (first : value) (rest : list value) :
  fst (_gen_schema ex (VList (first :: rest))) =
    VDict [(KStr "type", VStr "array");
           (KStr "items", fst (_gen_schema ex first))].
Proof. simpl. now destruct (_gen_schema ex first). Qed.

(** An assignment keeps a property that holds of every value of the
    dictionary and of the value assigned. *)
Lemma setitem_Forall (Q : value -> Prop) (d : dict) (k : key) (v : value) :
  Forall (fun kv => Q (snd kv)) d -> Q v ->
  Forall (fun kv => Q (snd kv)) (setitem d k v).
Proof.
  intros Hd Hv. induction Hd as [|[k' v'] rest Hk Hrest IH]; simpl.
  - constructor; [exact Hv | constructor].
  - destruct (key_eqb k' k); constructor; assumption.
Qed.

Lemma items_loop_values (Q : value -> Prop)
    (gen : value -> value * list event) (items : list (key * value)) :
  Forall (fun kv => Q (fst (gen (snd kv)))) items ->
  forall (properties : dict) (out : list event),
    Forall (fun kv => Q (snd kv)) properties ->
    Forall (fun kv => Q (snd kv)) (fst (items_loop gen items properties out)).
Proof.
  induction 1 as [|[k v] rest Hv _ IH]; intros properties out Hp; simpl.
  - exact Hp.
  - simpl in Hv. destruct (gen v) as [s o]. apply IH.
    now apply setitem_Forall.
Qed.

(** Property X1: whatever the payload, the schema inferred for it is a
    schema node: leaves carry a type among those of [_get_type_ex] and carry
    an example exactly when examples are on, that example being neither
    [None] nor a container; arrays and objects carry no example. *)
Theorem inferred_schema_is_node (v : value) :
  schema_node ex (fst (_gen_schema ex v)).
Proof.
  induction v as [ | b | n | f | s | l Hl | d Hd | cls truth] using value_ind'.
  1-5, 8: destruct ex eqn:E; simpl;
    (apply node_leaf || apply node_leaf_example);
    solve [reflexivity | exact E | simpl; tauto].
  - destruct l as [|first rest]; [apply node_empty_array|].
    rewrite gen_schema_list_schema. apply node_array.
    now inversion Hl.
  - simpl.
    pose proof (items_loop_values (schema_node ex) (_gen_schema ex) d Hd
                  [] [] (Forall_nil _)) as H.
    destruct (items_loop (_gen_schema ex) d [] []) as [p o].
    now apply node_object.
Qed.

(** Property X2: a payload made of what the JSON decoder builds (no object
    of another class at any depth) makes the inferencer print nothing. *)
Theorem json_payload_prints_nothing (v : value) :
  is_json v = true -> snd (_gen_schema ex v) = [].
Proof.
  induction v as [ | b | n | f | s | l Hl | d Hd | cls truth] using value_ind';
    intros Hj; try (destruct ex; reflexivity); try discriminate Hj.
  - destruct l as [|first rest]; [reflexivity|].
    rewrite gen_schema_list_out. simpl in Hj.
    apply andb_true_iff in Hj as [Hfirst _].
    inversion Hl as [|? ? IHfirst _]; subst. now apply IHfirst.
  - rewrite gen_schema_dict_out. simpl in Hj.
    induction Hd as [|[k x] rest Hx _ IH]; [reflexivity|].
    simpl in Hj. apply andb_true_iff in Hj as [Hjx Hjrest].
    simpl in Hx. specialize (Hx Hjx).
    change (flat_map (item_out ex) ((k, x) :: rest))
      with (snd (_gen_schema ex x) ++ flat_map (item_out ex) rest).
    rewrite Hx. now apply IH.
Qed.

(** Property X3: every diagnostic the inferencer prints is the
    unknown-type diagnostic, for an object of a class other than the seven it
    tests for. *)
Theorem diagnostics_name_foreign_objects (v : value) :
  Forall (fun e => exists cls truth, e = EUnknownType (VOther cls truth))
    (snd (_gen_schema ex v)).
Proof.
  induction v as [ | b | n | f | s | l Hl | d Hd | cls truth] using value_ind';
    try (destruct ex; now constructor).
  - destruct l as [|first rest]; [constructor|].
    rewrite gen_schema_list_out. now inversion Hl.
  - rewrite gen_schema_dict_out.
    induction Hd as [|[k x] rest Hx _ IH]; [constructor|].
    simpl. apply Forall_app. split; [exact Hx | exact IH].
  - destruct ex; simpl; constructor; eauto.
Qed.

Lemma items_loop_first_only (items : list (key * value)) :
  Forall (fun kv => _gen_schema ex (first_only (snd kv)) =
                    _gen_schema ex (snd kv)) items ->
  forall (properties : dict) (out : list event),
    items_loop (_gen_schema ex)
      (map (fun kv => (fst kv, first_only (snd kv))) items) properties out =
    items_loop (_gen_schema ex) items properties out.
Proof.
  induction 1 as [|[k v] rest Hv _ IH]; intros properties out; simpl.
  - reflexivity.
  - simpl in Hv. rewrite Hv. destruct (_gen_schema ex v) as [s o]. apply IH.
Qed.

(** Property X4: at every depth only the first element of a list takes
    part: cutting every list of the payload down to its first element changes
    neither the schema nor what is printed. *)
Theorem only_first_elements_matter (v : value) :
  _gen_schema ex (first_only v) = _gen_schema ex v.
Proof.
  induction v as [ | b | n | f | s | l Hl | d Hd | cls truth] using value_ind';
    try reflexivity.
  - destruct l as [|first rest]; [reflexivity|].
    inversion Hl as [|? ? Hfirst _]; subst.
    change (first_only (VList (first :: rest)))
      with (VList [first_only first]).
    cbn [_gen_schema]. now rewrite Hfirst.
  - change (first_only (VDict d))
      with (VDict (map (fun kv => (fst kv, first_only (snd kv))) d)).
    cbn [_gen_schema]. now rewrite items_loop_first_only.
Qed.

End Schemas.

Lemma json_payload_prints_nothing_witness :
  let v := VDict [(KStr "name", VStr "Ann");
                  (KStr "tags", VList [VNone; VFloat 2.5%float]);
                  (KStr "boss", VDict [(KStr "id", VInt 1)])] in
  is_json v = true /\ snd (Json2openapi._gen_schema true v) = [].
Proof.
  intros v. split; [reflexivity|].
  apply (json_payload_prints_nothing true v). reflexivity.
Defined.

(** ** The script from start to end *)

Section ScriptRuns.

Import Json2openapi.

Variable env : Env.

(** The assembly from any world, when the payload files can be loaded. *)
Lemma assemble_document_from (args : Args) (w : world) :
  loadable env (request args) ->
  loadable env (response args) ->
  assemble env args w =
    (Return (document args (request_body env args) (response_content env args)),
     {| _example := example args;
        stdout := stdout w ++ request_out env args ++ response_out env args |}).
Proof.
  intros Hq Hp. unfold assemble, bind, set__example.
  rewrite skeleton_document, request_step_document by (assumption || reflexivity).
  rewrite response_step_document by (assumption || reflexivity).
  simpl. now rewrite app_assoc.
Qed.

(** The trace of a run whose document is accepted. *)
Lemma run_accepted (args : Args) (oapi : value) (w : world) :
  assemble env args initial_world = (Return oapi, w) ->
  OpenAPI env oapi = None ->
  run env args =
    match supplied (output args) with
    | Some o =>
        if writable env o
        then (Return tt,
              stdout w ++
              [EPrint (nl ++ "OpenAPI looks valid" ++ nl)%string;
               EDump (Some o) oapi;
               EPrint ("Output written to " ++ o)%string])
        else (Raise (OSError o),
              stdout w ++ [EPrint (nl ++ "OpenAPI looks valid" ++ nl)%string])
    | None =>
        (Return tt,
         stdout w ++
         [EPrint (nl ++ "OpenAPI looks valid" ++ nl)%string;
          EPrint "---";
          EDump None oapi])
    end.
Proof.
  intros Ha Hv. rewrite (run_after_assemble env args oapi w Ha).
  unfold validate_and_write. rewrite Hv.
  destruct (supplied (output args)) as [o|]; [destruct (writable env o)|];
    simpl; now rewrite <- ?app_assoc.
Qed.

(** Property X5: the assembly sets the global flag before anything else,
    so a run started in any world assembles what a run started in a fresh
    interpreter assembles, prints the same after what was printed already,
    and leaves the flag at the value of the command line. *)
Theorem global_flag_does_not_leak (args : Args) (w : world) :
  assemble env args w =
    (fst (assemble env args initial_world),
     {| _example := example args;
        stdout := stdout w ++ stdout (snd (assemble env args initial_world)) |}).
Proof.
  destruct (loadable_dec env (request args)) as [Hq | (file & e & Hs & He)].
  - destruct (loadable_dec env (response args)) as [Hp | (file & e & Hs & He)].
    + now rewrite !assemble_document_from by assumption.
    + now rewrite !(assemble_fails_response env _ _ file e Hq Hs He).
  - rewrite !(assemble_fails_request env _ _ file e Hs He). simpl.
    now rewrite app_nil_r.
Qed.

(** Property X6: a payload that loads as a true value has its schema,
    inferred under the flag of the command line, at
    [requestBody.content.<media type>.schema] of the operation for the request
    and at [responses.<code>.content.<media type>.schema] for the response. *)
Theorem schema_under_media_type (args : Args) :
  loadable env (request args) ->
  loadable env (response args) ->
  exists (oapi : value) (w : world),
    assemble env args initial_world = (Return oapi, w) /\
    (forall file text v,
        supplied (request args) = Some file ->
        read_file env file = Some text ->
        decode env text = Return v ->
        truthy v = true ->
        lookup_in (operation args ++
                   [KStr "requestBody"; KStr "content";
                    KStr (media_type args); KStr "schema"]) oapi =
          Return (fst (_gen_schema (example args) v))) /\
    (forall file text v,
        supplied (response args) = Some file ->
        read_file env file = Some text ->
        decode env text = Return v ->
        truthy v = true ->
        lookup_in (operation args ++
                   [KStr "responses"; KInt (resp_code args); KStr "content";
                    KStr (media_type args); KStr "schema"]) oapi =
          Return (fst (_gen_schema (example args) v))).
Proof.
  intros Hq Hp. eexists. eexists. split; [now apply assemble_document|].
  split; intros file text v Hs Hf Hd Ht.
  - unfold request_body. rewrite (supplied_loaded env _ file text v Hs Hf Hd), Ht.
    unfold operation, document, body, content.
    destruct (response_content env args); simpl; now eqb_steps.
  - unfold response_content.
    rewrite (supplied_loaded env _ file text v Hs Hf Hd), Ht.
    unfold operation, document, content.
    destruct (request_body env args); simpl; now eqb_steps.
Qed.

Lemma request_body_supplied (args : Args) :
  loadable env (request args) ->
  match supplied (request args) with
  | Some _ => exists x, request_body env args = Some x
  | None => request_body env args = None
  end.
Proof.
  intros Hq. unfold request_body, loaded, loadable in *.
  destruct (supplied (request args)) as [file|]; [|reflexivity].
  destruct (Hq file eq_refl) as (text & v & Hf & Hd). rewrite Hf, Hd.
  destruct (truthy v); eauto.
Qed.

Lemma lower_method_name (m : http_method) :
  In (lower (method_name m)) method_keys.
Proof. destruct m; simpl; tauto. Qed.

(** Property X7: every assembled document has the keys [openapi], [info],
    [paths] in this order, the version ["3.0.0"], the fixed title and
    version of [info], one path, under it one operation, keyed by the method
    in lower case; the operation has [requestBody] before [responses] when a
    request is supplied and [responses] alone otherwise, and the response has
    the empty description. *)
Theorem document_frame (args : Args) (oapi : value) (w : world) :
  assemble env args initial_world = (Return oapi, w) ->
  keys_at [] oapi = Some [KStr "openapi"; KStr "info"; KStr "paths"] /\
  lookup_in [KStr "openapi"] oapi = Return (VStr "3.0.0") /\
  lookup_in [KStr "info"] oapi =
    Return (VDict [(KStr "title", VStr "Generated by json2openapi");
                   (KStr "version", VStr "v1")]) /\
  keys_at [KStr "paths"] oapi = Some [KStr (path args)] /\
  keys_at [KStr "paths"; KStr (path args)] oapi =
    Some [KStr (lower (method_name (method args)))] /\
  In (lower (method_name (method args))) method_keys /\
  keys_at (operation args) oapi =
    Some (match supplied (request args) with
          | Some _ => [KStr "requestBody"; KStr "responses"]
          | None => [KStr "responses"]
          end) /\
  lookup_in (operation args ++
             [KStr "responses"; KInt (resp_code args); KStr "description"])
    oapi = Return (VStr "").
Proof.
  intros H. destruct (assemble_returns env args oapi w H) as [Hq _].
  destruct (assemble_shape env args oapi w H) as [-> _].
  pose proof (request_body_supplied args Hq) as Hb.
  pose proof (lower_method_name (method args)) as Hm.
  revert Hb. unfold keys_at, operation, document.
  destruct (supplied (request args)) as [file|]; [intros [x ->] | intros ->];
    destruct (response_content env args); simpl; eqb_steps;
    repeat split; exact Hm.
Qed.

(** Property X8: a payload file that cannot be read ends the run with the
    [OSError] of that file and nothing is dumped; for the request file,
    nothing has been printed either (the response file is reached once the
    request is loaded). *)
Theorem unreadable_payload_raises (args : Args) (file : string) :
  read_file env file = None ->
  (supplied (request args) = Some file ->
   run env args = (Raise (OSError file), [])) /\
  (loadable env (request args) ->
   supplied (response args) = Some file ->
   fst (run env args) = Raise (OSError file) /\
   dumped (snd (run env args)) = []).
Proof.
  intros Hf. pose proof (unreadable_load_error env file Hf) as He. split.
  - intros Hs.
    now rewrite (run_assembly_raises env args _ _
                   (assemble_fails_request env args initial_world file _
                      Hs He)).
  - intros Hq Hs.
    rewrite (run_assembly_raises env args _ _
               (assemble_fails_response env args initial_world file _
                  Hq Hs He)).
    simpl. split; [reflexivity | apply request_out_no_dump].
Qed.

(** Property X9: when the document is accepted but the output file cannot
    be opened for writing, the run has announced that the document looks
    valid and ends with the [OSError] of the output file; nothing is dumped. *)
Theorem unwritable_output_raises (args : Args) (oapi : value) (w : world)
    (o : string) :
  assemble env args initial_world = (Return oapi, w) ->
  OpenAPI env oapi = None ->
  supplied (output args) = Some o ->
  writable env o = false ->
  run env args =
    (Raise (OSError o),
     stdout w ++ [EPrint (nl ++ "OpenAPI looks valid" ++ nl)%string]) /\
  dumped (snd (run env args)) = [].
Proof.
  intros Ha Hv Hs Hw. rewrite (run_accepted args oapi w Ha Hv), Hs, Hw.
  split; [reflexivity|]. simpl.
  destruct (assemble_shape env args oapi w Ha) as [_ Hd].
  now rewrite dumped_app, Hd.
Qed.

(** Property X10: a run dumps at most one document, and a document that is
    dumped is the assembled document, which the validator has accepted; the
    run then returns. *)
Theorem only_validated_documents_dumped (args : Args) (doc : value) :
  In doc (dumped (snd (run env args))) ->
  OpenAPI env doc = None /\
  fst (assemble env args initial_world) = Return doc /\
  dumped (snd (run env args)) = [doc] /\
  fst (run env args) = Return tt.
Proof.
  destruct (loadable_dec env (request args)) as [Hq | (file & e & Hs & He)].
  - destruct (loadable_dec env (response args)) as [Hp | (file & e & Hs & He)].
    + pose proof (assemble_document env args Hq Hp) as Ha.
      destruct (assemble_shape env _ _ _ Ha) as [_ Hd].
      set (oapi := document args (request_body env args)
                     (response_content env args)) in *.
      set (w0 := {| _example := example args;
                    stdout := request_out env args ++ response_out env args |})
        in *.
      clearbody oapi w0.
      destruct (OpenAPI env oapi) as [message|] eqn:Hv.
      * rewrite (refused_run env args oapi _ message Ha Hv). simpl snd.
        rewrite dumped_app, Hd. intros [].
      * rewrite (run_accepted args oapi _ Ha Hv), Ha.
        destruct (supplied (output args)) as [o|];
          [destruct (writable env o)|]; simpl fst; simpl snd;
          rewrite dumped_app, Hd; simpl;
          first [intros [<-|[]]; now auto | intros []].
    + rewrite (run_assembly_raises env args _ _
                 (assemble_fails_response env args initial_world file e
                    Hq Hs He)).
      simpl. rewrite request_out_no_dump. intros [].
  - rewrite (run_assembly_raises env args _ _
               (assemble_fails_request env args initial_world file e Hs He)).
    intros [].
Qed.

(** Property X11: when the document is accepted and the output file, if one
    is named, can be written, the run prints that the document looks valid,
    then either dumps the document into the file and prints the name of the
    file, or prints the separator and dumps the document on standard
    output. *)
Theorem accepted_run_trace (args : Args) (oapi : value) (w : world) :
  assemble env args initial_world = (Return oapi, w) ->
  OpenAPI env oapi = None ->
  (forall o, supplied (output args) = Some o -> writable env o = true) ->
  run env args =
    (Return tt,
     stdout w ++
     EPrint (nl ++ "OpenAPI looks valid" ++ nl)%string ::
     match supplied (output args) with
     | Some o => [EDump (Some o) oapi; EPrint ("Output written to " ++ o)%string]
     | None => [EPrint "---"; EDump None oapi]
     end).
Proof.
  intros Ha Hv Hw. rewrite (run_accepted args oapi w Ha Hv).
  destruct (supplied (output args)) as [o|]; [|reflexivity].
  now rewrite (Hw o eq_refl).
Qed.

End ScriptRuns.

(** ** The driver from start to end *)

Section DriverRuns.

Variable env : Env.

Variable build_openapi :
  string -> string -> Z -> option string -> option string -> string -> bool ->
  M value.

(** Once the payload files are read, the driver is the call of
    [build_openapi] followed by the output. *)
Lemma driver_after_reading (args : Args) (w : world) :
  readable env (request args) ->
  readable env (response args) ->
  Inducoapi.main env build_openapi args w =
    match build_call env build_openapi args w with
    | (Return oapi, w') =>
        catch (Inducoapi._write_output env oapi (output args))
          (fun e =>
             match e with
             | OSError file =>
                 print ("Error writing output file" ++ nl
                        ++ strerror env file)%string
             | _ => raise e
             end) w'
    | (Raise e, w') => (Raise (driver_exit e), w')
    end.
Proof.
  intros Hq Hp. unfold Inducoapi.main, bind.
  rewrite (read_payload_readable env "request" _ _ Hq).
  rewrite (read_payload_readable env "response" _ _ Hp).
  cbv beta iota. unfold catch at 1, build_call.
  destruct (build_openapi _ _ _ _ _ _ _ w) as [[oapi|e] w']; [reflexivity|].
  now destruct e.
Qed.

(** Property X12: when the payload files can be read, [build_openapi]
    returns a document and the output file, if one is named, can be
    written, the driver dumps that document, into the file (and then prints
    the name of the file) or on standard output, and returns. *)
Theorem driver_writes_built_document (args : Args) (oapi : value) (w : world) :
  readable env (request args) ->
  readable env (response args) ->
  build_call env build_openapi args initial_world = (Return oapi, w) ->
  (forall o, supplied (output args) = Some o -> writable env o = true) ->
  Inducoapi.main env build_openapi args initial_world =
    (Return tt,
     {| _example := _example w;
        stdout :=
          stdout w ++
          match supplied (output args) with
          | Some o =>
              [EDump (Some o) oapi; EPrint ("Output written to " ++ o)%string]
          | None => [EDump None oapi]
          end |}).
Proof.
  intros Hq Hp Hb Hw. rewrite (driver_after_reading args _ Hq Hp), Hb.
  unfold catch, Inducoapi._write_output.
  destruct (supplied (output args)) as [o|]; [|reflexivity].
  rewrite (Hw o eq_refl). simpl. now rewrite <- app_assoc.
Qed.

(** Property X13: when the output file cannot be opened for writing, the
    driver catches the [OSError], prints the error and returns; nothing is
    dumped. *)
Theorem driver_write_error_caught (args : Args) (oapi : value) (w : world)
    (o : string) :
  readable env (request args) ->
  readable env (response args) ->
  build_call env build_openapi args initial_world = (Return oapi, w) ->
  supplied (output args) = Some o ->
  writable env o = false ->
  Inducoapi.main env build_openapi args initial_world =
    (Return tt,
     {| _example := _example w;
        stdout :=
          stdout w ++
          [EPrint ("Error writing output file" ++ nl ++ strerror env o)%string]
     |}).
Proof.
  intros Hq Hp Hb Hs Hw. rewrite (driver_after_reading args _ Hq Hp), Hb.
  unfold catch, Inducoapi._write_output. now rewrite Hs, Hw.
Qed.

(** Property X14: a payload file that cannot be read makes the driver exit
    with the message of the file at fault, the request file first, and
    [build_openapi] is not called: the world is left as it was. *)
Theorem driver_read_error_exits (args : Args) (file : string) :
  read_file env file = None ->
  (supplied (request args) = Some file ->
   Inducoapi.main env build_openapi args initial_world =
     (Raise (SystemExit ("Error reading request file" ++ nl
                         ++ strerror env file)%string),
      initial_world)) /\
  (readable env (request args) ->
   supplied (response args) = Some file ->
   Inducoapi.main env build_openapi args initial_world =
     (Raise (SystemExit ("Error reading response file" ++ nl
                         ++ strerror env file)%string),
      initial_world)).
Proof.
  intros Hf. split.
  - intros Hs. unfold Inducoapi.main, bind, Inducoapi.read_payload at 1.
    now rewrite Hs, Hf.
  - intros Hq Hs. unfold Inducoapi.main, bind.
    rewrite (read_payload_readable env "request" _ _ Hq).
    unfold Inducoapi.read_payload. now rewrite Hs, Hf.
Qed.

(** Property X15: when [build_openapi] raises, the driver writes nothing
    after it: a [SpecError] becomes an exit with the validation message, a
    [ValueError] an exit with its own message, and any other exception goes
    through unchanged. *)
Theorem driver_build_errors (args : Args) (e : exn) (w : world) :
  readable env (request args) ->
  readable env (response args) ->
  build_call env build_openapi args initial_world = (Raise e, w) ->
  Inducoapi.main env build_openapi args initial_world =
    (Raise (driver_exit e), w).
Proof.
  intros Hq Hp Hb. now rewrite (driver_after_reading args _ Hq Hp), Hb.
Qed.

End DriverRuns.

(** ** The properties on the small world *)

Lemma example_files_readable (arg : option string) :
  (forall file, supplied arg = Some file -> example_files file <> None) ->
  readable example_env arg /\ readable readonly_env arg.
Proof. intros H. split; exact H. Qed.

Lemma list_json_readable :
  readable example_env (Some "list.json") /\
  readable readonly_env (Some "list.json").
Proof.
  apply example_files_readable. intros file H. cbv in H.
  injection H as <-. cbv. discriminate.
Defined.

Lemma list_yaml_loadable : loadable example_env (Some "list.yaml").
Proof.
  intros file H. cbv in H. injection H as <-.
  exists yaml_text, (VList [VInt 1; VInt 2]). split; reflexivity.
Defined.

Lemma none_readable (env : Env) : readable env None.
Proof. intros file H. discriminate H. Defined.

Lemma schema_under_media_type_witness :
  let args := example_args (Some "list.json") (Some "list.yaml") in
  let schema := VDict [(KStr "type", VStr "array");
                       (KStr "items", typed_ex "integer" (VInt 1))] in
  exists (oapi : value) (w : world),
    Json2openapi.assemble example_env args initial_world = (Return oapi, w) /\
    lookup_in (Json2openapi.operation args ++
               [KStr "requestBody"; KStr "content"; KStr "application/json";
                KStr "schema"]) oapi = Return schema /\
    lookup_in (Json2openapi.operation args ++
               [KStr "responses"; KInt 201; KStr "content";
                KStr "application/json"; KStr "schema"]) oapi = Return schema.
Proof.
  intros args schema.
  destruct (schema_under_media_type example_env args
              (list_json_loadable example_env eq_refl eq_refl)
              list_yaml_loadable)
    as (oapi & w & Ha & Hreq & Hrsp).
  exists oapi, w. split; [exact Ha|]. split.
  - exact (Hreq "list.json" "[1, 2]" (VList [VInt 1; VInt 2])
             eq_refl eq_refl eq_refl eq_refl).
  - exact (Hrsp "list.yaml" yaml_text (VList [VInt 1; VInt 2])
             eq_refl eq_refl eq_refl eq_refl).
Defined.

Lemma document_frame_witness :
  let args := example_args (Some "list.json") (Some "list.yaml") in
  Json2openapi.assemble example_env args initial_world =
    (Return (assembled example_env args), assembled_world example_env args) /\
  keys_at (Json2openapi.operation args) (assembled example_env args) =
    Some [KStr "requestBody"; KStr "responses"] /\
  keys_at [KStr "paths"; KStr "/employees"] (assembled example_env args) =
    Some [KStr "post"].
Proof.
  intros args.
  pose proof (document_frame example_env args (assembled example_env args)
                (assembled_world example_env args) eq_refl) as H.
  split; [reflexivity|]. split; [apply H | apply H].
Defined.

Lemma unreadable_payload_raises_witness :
  Json2openapi.run example_env (example_args (Some "missing.json") None) =
    (Raise (OSError "missing.json"), []) /\
  fst (Json2openapi.run example_env
         (example_args (Some "list.json") (Some "missing.json"))) =
    Raise (OSError "missing.json") /\
  Json2openapi.dumped
    (snd (Json2openapi.run example_env
            (example_args (Some "list.json") (Some "missing.json")))) = [].
Proof.
  split.
  - exact (proj1 (unreadable_payload_raises example_env
                    (example_args (Some "missing.json") None)
                    "missing.json" eq_refl) eq_refl).
  - exact (proj2 (unreadable_payload_raises example_env
                    (example_args (Some "list.json") (Some "missing.json"))
                    "missing.json" eq_refl)
             (list_json_loadable example_env eq_refl eq_refl) eq_refl).
Defined.

Lemma unwritable_output_raises_witness :
  let args := output_args (Some "out.yaml") in
  Json2openapi.run readonly_env args =
    (Raise (OSError "out.yaml"),
     [EPrint (nl ++ "OpenAPI looks valid" ++ nl)%string]) /\
  Json2openapi.dumped (snd (Json2openapi.run readonly_env args)) = [].
Proof.
  intros args.
  exact (unwritable_output_raises readonly_env args
           (assembled readonly_env args) (assembled_world readonly_env args)
           "out.yaml" eq_refl eq_refl eq_refl eq_refl).
Defined.

Lemma only_validated_documents_dumped_witness :
  let args := output_args (Some "out.yaml") in
  let doc := assembled example_env args in
  In doc (Json2openapi.dumped (snd (Json2openapi.run example_env args))) /\
  OpenAPI example_env doc = None /\
  fst (Json2openapi.assemble example_env args initial_world) = Return doc /\
  Json2openapi.dumped (snd (Json2openapi.run example_env args)) = [doc] /\
  fst (Json2openapi.run example_env args) = Return tt.
Proof.
  intros args doc.
  assert (Hin : In doc (Json2openapi.dumped
                          (snd (Json2openapi.run example_env args)))).
  { left. reflexivity. }
  split; [exact Hin|].
  exact (only_validated_documents_dumped example_env args doc Hin).
Defined.

Lemma accepted_run_trace_witness :
  let args := output_args (Some "out.yaml") in
  Json2openapi.run example_env args =
    (Return tt,
     [EPrint (nl ++ "OpenAPI looks valid" ++ nl)%string;
      EDump (Some "out.yaml") (assembled example_env args);
      EPrint "Output written to out.yaml"]).
Proof.
  intros args.
  exact (accepted_run_trace example_env args (assembled example_env args)
           (assembled_world example_env args) eq_refl eq_refl
           (fun o _ => eq_refl)).
Defined.

Lemma driver_writes_built_document_witness :
  let args := output_args (Some "out.yaml") in
  Inducoapi.main example_env (build_returns (VDict [])) args initial_world =
    (Return tt,
     {| _example := false;
        stdout := [EDump (Some "out.yaml") (VDict []);
                   EPrint "Output written to out.yaml"] |}).
Proof.
  intros args.
  exact (driver_writes_built_document example_env (build_returns (VDict []))
           args (VDict []) initial_world (none_readable example_env)
           (proj1 list_json_readable) eq_refl (fun o _ => eq_refl)).
Defined.

Lemma driver_write_error_caught_witness :
  let args := output_args (Some "out.yaml") in
  Inducoapi.main readonly_env (build_returns (VDict [])) args initial_world =
    (Return tt,
     {| _example := false;
        stdout := [EPrint ("Error writing output file" ++ nl ++
                           "No such file or directory: out.yaml")%string] |}).
Proof.
  intros args.
  exact (driver_write_error_caught readonly_env (build_returns (VDict []))
           args (VDict []) initial_world "out.yaml"
           (none_readable readonly_env) (proj2 list_json_readable)
           eq_refl eq_refl eq_refl).
Defined.

Lemma driver_read_error_exits_witness :
  Inducoapi.main example_env (build_returns (VDict []))
    (example_args (Some "missing.json") (Some "missing.json")) initial_world =
    (Raise (SystemExit ("Error reading request file" ++ nl ++
                        "No such file or directory: missing.json")%string),
     initial_world) /\
  Inducoapi.main example_env (build_returns (VDict []))
    (example_args (Some "list.json") (Some "missing.json")) initial_world =
    (Raise (SystemExit ("Error reading response file" ++ nl ++
                        "No such file or directory: missing.json")%string),
     initial_world).
Proof.
  split.
  - exact (proj1 (driver_read_error_exits example_env
                    (build_returns (VDict []))
                    (example_args (Some "missing.json") (Some "missing.json"))
                    "missing.json" eq_refl) eq_refl).
  - exact (proj2 (driver_read_error_exits example_env
                    (build_returns (VDict []))
                    (example_args (Some "list.json") (Some "missing.json"))
                    "missing.json" eq_refl)
             (proj1 list_json_readable) eq_refl).
Defined.

Lemma driver_build_errors_witness :
  let args := output_args None in
  Inducoapi.main example_env (build_raises (ValueError "bad media type")) args
    initial_world = (Raise (SystemExit "bad media type"), initial_world) /\
  Inducoapi.main example_env (build_raises (KeyError "paths")) args
    initial_world = (Raise (KeyError "paths"), initial_world).
Proof.
  intros args. split.
  - exact (driver_build_errors example_env
             (build_raises (ValueError "bad media type")) args
             (ValueError "bad media type") initial_world
             (none_readable example_env) (proj1 list_json_readable) eq_refl).
  - exact (driver_build_errors example_env
             (build_raises (KeyError "paths")) args
             (KeyError "paths") initial_world
             (none_readable example_env) (proj1 list_json_readable) eq_refl).
Defined.
